(** * Kissan Dost: the advisory request handler of [backend/main.py]

    A shallow embedding of the FastAPI handlers of [backend/main.py]
    ([get_weather], [get_mandi_prices], [chat], [prices], [weather]) and
    the properties of the advisory pipeline proved about them.

    Python values are embedded as an inductive type of JSON-shaped
    objects, text as UTF-8 byte strings, exceptions as an error result,
    and the two outbound calls (the Open-Meteo GET and the Groq
    completion) as calls to a [World] whose answers are arbitrary; every
    outbound call is logged so that what is sent can be stated. *)

From Stdlib Require Import ZArith NArith String Ascii List Bool Floats.
From Stdlib.Strings Require Byte.
From Stdlib Require Import DecimalString Lia.
Import ListNotations.

Set Warnings "-inexact-float,-register-all".

Local Open Scope list_scope.
Local Open Scope string_scope.

(** The line feed of Python's ["\n"]. *)
Definition nl : string := String (ascii_of_nat 10) EmptyString.

(* ================================================================= *)
(** ** Python values, exceptions and results *)

Module Py.

(** Exceptions the handler can let escape. *)
Inductive exn : Type :=
| TransportError            (* httpx.TransportError: connect, read, timeout *)
| JSONDecodeError           (* resp.json() on a body that is not JSON *)
| KeyError (key : string)   (* d[key] on a dict without key *)
| TypeError                 (* x[key] on a value that is not subscriptable by str *)
| IndexError                (* l[i] out of range *)
| AttributeError            (* None.attr *)
| APIError.                 (* groq.APIError: status, connection, rate limit *)

Inductive result (A : Type) : Type :=
| Ok (a : A)
| Raise (e : exn).
Arguments Ok {A} a.
Arguments Raise {A} e.

(** What [json.loads] builds, and what the handler's dict literals are. *)
Inductive val : Type :=
| VNone
| VBool (b : bool)
| VInt (z : Z)
| VFloat (f : float)
| VStr (s : string)
| VList (l : list val)
| VDict (d : list (string * val)).

(** [bool(v)]: the truth value tested by [if v] and [v if c else w]. *)
Definition truthy (v : val) : bool :=
  match v with
  | VNone => false
  | VBool b => b
  | VInt z => negb (z =? 0)%Z
  | VFloat f => negb (f =? 0)%float
  | VStr s => negb (String.eqb s "")
  | VList l => match l with [] => false | _ => true end
  | VDict d => match d with [] => false | _ => true end
  end.

Fixpoint lookup (key : string) (d : list (string * val)) : option val :=
  match d with
  | [] => None
  | (k, v) :: d' => if String.eqb k key then Some v else lookup key d'
  end.

(** [v[key]] for a string key. *)
Definition getitem (v : val) (key : string) : result val :=
  match v with
  | VDict d => match lookup key d with
               | Some x => Ok x
               | None => Raise (KeyError key)
               end
  | _ => Raise TypeError
  end.

(** [v[i]] for a list index. *)
Definition getindex (v : val) (i : nat) : result val :=
  match v with
  | VList l => match nth_error l i with
               | Some x => Ok x
               | None => Raise IndexError
               end
  | _ => Raise TypeError
  end.

(** [list(v.items())] of a dict. *)
Definition items (v : val) : list (string * val) :=
  match v with
  | VDict d => d
  | _ => []
  end.

Definition str_of_int (z : Z) : string := NilZero.string_of_int (Z.to_int z).

Section Repr.
(** [repr] of a float (shortest decimal that round-trips) and of a str
    (quoting and escaping) are the interpreter's; the handler only
    splices their output into text. *)
Variable float_repr : float -> string.
Variable str_repr : string -> string.

Fixpoint repr (v : val) : string :=
  match v with
  | VNone => "None"
  | VBool true => "True"
  | VBool false => "False"
  | VInt z => str_of_int z
  | VFloat f => float_repr f
  | VStr s => str_repr s
  | VList l => "[" ++ String.concat ", " (map repr l) ++ "]"
  | VDict d =>
      "{" ++ String.concat ", "
               (map (fun kv => str_repr (fst kv) ++ ": " ++ repr (snd kv)) d)
          ++ "}"
  end.

(** [str(v)], which is what a replacement field [{v}] of an f-string
    inserts: a str is itself, anything else is its [repr]. *)
Definition str (v : val) : string :=
  match v with
  | VStr s => s
  | _ => repr v
  end.
End Repr.

End Py.

Import Py.

(* ================================================================= *)
(** ** [base64.b64encode] *)

Module Base64.

Definition alphabet : string :=
  "ABCDEFGHIJKLMNOPQRSTUVWXYZabcdefghijklmnopqrstuvwxyz0123456789+/".

Definition pad : ascii := "="%char.

(** The character of a 6-bit group. *)
Definition enc6 (i : N) : ascii :=
  match String.get (N.to_nat i) alphabet with
  | Some c => c
  | None => pad
  end.

Fixpoint index_of (c : ascii) (s : string) (i : N) : option N :=
  match s with
  | EmptyString => None
  | String c' s' => if Ascii.eqb c' c then Some i else index_of c s' (N.succ i)
  end.

Definition dec6 (c : ascii) : option N := index_of c alphabet 0.

(** Three bytes as one 24-bit group. *)
Definition group (a b c : Byte.byte) : N :=
  N.shiftl (Byte.to_N a) 16 + N.shiftl (Byte.to_N b) 8 + Byte.to_N c.

Definition sextet (n : N) (k : N) : N := N.land (N.shiftr n (6 * k)) 63.

Definition zero : Byte.byte := Byte.x00.

(** Standard alphabet, [=] padding, no line breaks. *)
Fixpoint b64encode (bs : list Byte.byte) : string :=
  match bs with
  | [] => ""
  | [a] =>
      let n := group a zero zero in
      String (enc6 (sextet n 3)) (String (enc6 (sextet n 2))
        (String pad (String pad "")))
  | [a; b] =>
      let n := group a b zero in
      String (enc6 (sextet n 3)) (String (enc6 (sextet n 2))
        (String (enc6 (sextet n 1)) (String pad "")))
  | a :: b :: c :: rest =>
      let n := group a b c in
      String (enc6 (sextet n 3)) (String (enc6 (sextet n 2))
        (String (enc6 (sextet n 1)) (String (enc6 (sextet n 0))
          (b64encode rest))))
  end.

Definition octet (n : N) (k : N) : option Byte.byte :=
  Byte.of_N (N.land (N.shiftr n (8 * k)) 255).

(** Four 6-bit groups as one 24-bit group. *)
Definition ungroup (i3 i2 i1 i0 : N) : N :=
  N.shiftl i3 18 + N.shiftl i2 12 + N.shiftl i1 6 + i0.

Definition opt_cons {A} (x : option A) (l : option (list A)) : option (list A) :=
  match x, l with
  | Some a, Some l' => Some (a :: l')
  | _, _ => None
  end.

(** The inverse, used to validate the encoder: strict, whole groups of
    four characters, padding only in the last group. *)
Fixpoint b64decode_fuel (fuel : nat) (s : string) : option (list Byte.byte) :=
  match fuel with
  | O => None
  | S fuel' =>
      match s with
      | EmptyString => Some []
      | String c3 (String c2 (String c1 (String c0 rest))) =>
          match dec6 c3, dec6 c2 with
          | Some i3, Some i2 =>
              if Ascii.eqb c1 pad then
                if Ascii.eqb c0 pad then
                  match rest with
                  | EmptyString => opt_cons (octet (ungroup i3 i2 0 0) 2) (Some [])
                  | _ => None
                  end
                else None
              else
                match dec6 c1 with
                | Some i1 =>
                    if Ascii.eqb c0 pad then
                      match rest with
                      | EmptyString =>
                          let n := ungroup i3 i2 i1 0 in
                          opt_cons (octet n 2) (opt_cons (octet n 1) (Some []))
                      | _ => None
                      end
                    else
                      match dec6 c0 with
                      | Some i0 =>
                          let n := ungroup i3 i2 i1 i0 in
                          opt_cons (octet n 2) (opt_cons (octet n 1)
                            (opt_cons (octet n 0) (b64decode_fuel fuel' rest)))
                      | None => None
                      end
                | None => None
                end
          | _, _ => None
          end
      | _ => None
      end
  end.

Definition b64decode (s : string) : option (list Byte.byte) :=
  b64decode_fuel (S (String.length s)) s.

End Base64.


(* ================================================================= *)
(** ** [backend/main.py] *)

Module Main.

Import Base64.

(** *** The outside world *)

(** An [httpx.Response], as far as the handler looks at it; [json] is
    the outcome of [resp.json()], which raises on a body that does not
    parse. *)
Record Response : Type := {
  status_code : Z;
  json : result val
}.

(** A Groq [ChatCompletion], as far as the handler looks at it, and as
    the SDK's types declare it: [choices] is a list of choices that each
    carry a message, [usage] is optional, [content] is optional. The SDK
    does not validate the body it receives; a body that breaks these
    types ([choices] or a [message] that is [null]) is not among the
    completions of this record, so what is proved about a completion
    holds for the well-typed ones. *)
Record ChatCompletionMessage : Type := { content : option string }.
Record Choice : Type := { choice_message : ChatCompletionMessage }.
Record CompletionUsage : Type := { total_tokens : Z }.
Record ChatCompletion : Type := {
  choices : list Choice;
  usage : option CompletionUsage
}.

(** Keyword arguments of a call, in the order written. *)
Definition kwargs : Type := list (string * val).

(** The outbound calls. *)
Inductive call : Type :=
| HttpGet (url : string)          (* httpx.AsyncClient().get(url) *)
| GroqCreate (kw : kwargs).       (* groq.chat.completions.create( **kw ) *)

(** What the two providers answer; either may raise instead. *)
Record World : Type := {
  httpx_get : string -> result Response;
  groq_create : kwargs -> result ChatCompletion
}.

(** A handler reads the world, logs its outbound calls in order, and
    returns or raises. *)
Definition M (A : Type) : Type := World -> list call * result A.

Definition ret {A} (a : A) : M A := fun _ => ([], Ok a).

Definition bind {A B} (m : M A) (k : A -> M B) : M B :=
  fun w =>
    match m w with
    | (t, Ok a) => let (t', r) := k a w in (t ++ t', r)%list
    | (t, Raise e) => (t, Raise e)
    end.

Definition lift {A} (r : result A) : M A := fun _ => ([], r).

Definition client_get (url : string) : M Response :=
  fun w => ([HttpGet url], httpx_get w url).

Definition groq_chat_completions_create (kw : kwargs) : M ChatCompletion :=
  fun w => ([GroqCreate kw], groq_create w kw).

Definition calls {A} (x : list call * result A) : list call := fst x.
Definition outcome {A} (x : list call * result A) : result A := snd x.

Notation "x <- m ;; k" := (bind m (fun x => k))
  (at level 100, m at next level, right associativity).

Notation "'let?' x := r 'in' k" :=
  (match r with Ok x => k | Raise e => Raise e end)
  (at level 100, x name, r at next level, k at level 200,
   right associativity).

(** *** Python operations the handler uses *)

(** [l[i]] on a list. *)
Definition index {A} (l : list A) (i : nat) : result A :=
  match nth_error l i with
  | Some a => Ok a
  | None => Raise IndexError
  end.

(** [d[key] = x] on the entries of a dict: replaces in place, or adds
    the key at the end. *)
Fixpoint dict_set (key : string) (x : val) (d : list (string * val))
  : list (string * val) :=
  match d with
  | [] => [(key, x)]
  | (k, v) :: d' =>
      if String.eqb k key then (k, x) :: d' else (k, v) :: dict_set key x d'
  end.

Fixpoint list_set {A} (i : nat) (x : A) (l : list A) : result (list A) :=
  match l, i with
  | [], _ => Raise IndexError
  | _ :: l', O => Ok (x :: l')
  | a :: l', S i' => let? r := list_set i' x l' in Ok (a :: r)
  end.

(** [v[i][key] = x]: the list [v] with the dict at index [i] updated. *)
Definition setitem2 (v : val) (i : nat) (key : string) (x : val) : result val :=
  match v with
  | VList l =>
      let? item := index l i in
      match item with
      | VDict d => let? l' := list_set i (VDict (dict_set key x d)) l in Ok (VList l')
      | _ => Raise TypeError
      end
  | _ => Raise TypeError
  end.

(** A Starlette [UploadFile]: the declared names and the bytes that
    [await image.read()] returns for a fresh upload. The class defines
    neither [__bool__] nor [__len__], so every instance is true. *)
Record UploadFile : Type := {
  filename : option string;
  content_type : option string;
  file : list Byte.byte
}.

Definition read (f : UploadFile) : list Byte.byte := file f.

(** The form of [POST /api/chat] after FastAPI has applied the declared
    defaults; [image] is [None] when no file part was sent. *)
Record ChatForm : Type := {
  message : string;
  language : string;
  image : option UploadFile;
  latitude : float;
  longitude : float
}.

Definition default_language : string := "ur".
Definition default_latitude : float := 31.5204%float.
Definition default_longitude : float := 74.3587%float.

Definition form (message : string) (language : option string)
    (image : option UploadFile) (latitude longitude : option float) : ChatForm :=
  {| message := message;
     language := match language with Some l => l | None => default_language end;
     image := image;
     latitude := match latitude with Some x => x | None => default_latitude end;
     longitude := match longitude with Some x => x | None => default_longitude end |}.

(** *** Module constants *)

Definition SYSTEM_PROMPT : string := "You are Kissan Dost (کسان دوست), an expert Agricultural Advisor AI for Pakistani farmers.

MISSION: Eliminate information asymmetry, maximize yield, profitability, and climate resilience.

ALWAYS structure your response in EXACTLY this format with these three sections:

## I. فوری ہدایت (Immediate Action)
[Critical steps the farmer must take RIGHT NOW - be specific and urgent]

## II. تفصیلی تجویز (Detailed Recommendation)
[Numbered comprehensive advice including:
- Specific chemical names and dosages (e.g., Mancozeb 75% WP @ 2.5g/L)
- Organic alternatives
- Application timing and frequency
- Prevention measures]

## III. منڈی بھاؤ اور موسمی سیاق (Market & Climate Context)
[Include:
- Current estimated market rates for relevant crops in PKR
- Weather-related advice
- Best time to sell]

RULES:
- Respond in the SAME LANGUAGE as the query (Urdu/Punjabi/English/Sindhi)
- Be confident, direct, actionable - NO filler
- Include specific product names available in Pakistan
- Never ask clarifying questions - provide complete advice immediately
- Use local Pakistani agricultural context and available products".

Definition TEXT_MODEL : string := "llama-3.3-70b-versatile".
Definition VISION_MODEL : string := "llama-3.2-90b-vision-preview".

(** *** The handlers *)

Section Handlers.
Variable float_repr : float -> string.
Variable str_repr : string -> string.

(** What a replacement field [{v}] of an f-string inserts. *)
Definition fmt (v : val) : string := Py.str float_repr str_repr v.

Definition weather_url (lat lon : float) : string :=
  "https://api.open-meteo.com/v1/forecast?latitude=" ++ float_repr lat
  ++ "&longitude=" ++ float_repr lon
  ++ "&current=temperature_2m,relative_humidity_2m,precipitation"
  ++ "&daily=precipitation_sum&timezone=Asia/Karachi".

(** [get_weather], lines 53-58. *)
Definition get_weather (lat lon : float) : M val :=
  let url := weather_url lat lon in
  resp <- client_get url ;;
  if (status_code resp =? 200)%Z then lift (json resp) else ret VNone.

(** [get_mandi_prices], lines 61-69. *)
Definition get_mandi_prices : val :=
  VDict [
    ("wheat", VDict [("price", VInt 4200); ("unit", VStr "40kg"); ("trend", VStr "up")]);
    ("cotton", VDict [("price", VInt 8500); ("unit", VStr "40kg"); ("trend", VStr "stable")]);
    ("rice", VDict [("price", VInt 5800); ("unit", VStr "40kg"); ("trend", VStr "up")]);
    ("sugarcane", VDict [("price", VInt 350); ("unit", VStr "40kg"); ("trend", VStr "stable")]);
    ("maize", VDict [("price", VInt 2800); ("unit", VStr "40kg"); ("trend", VStr "down")])
  ].

(** The f-string [context] of [chat], lines 86-90; its replacement
    fields are evaluated left to right. *)
Definition chat_context (weather prices : val) : result string :=
  let? current :=
    (if truthy weather then getitem weather "current" else Ok (VStr "N/A")) in
  let? wheat := getitem prices "wheat" in
  let? wheat_price := getitem wheat "price" in
  let? wheat' := getitem prices "wheat" in
  let? wheat_unit := getitem wheat' "unit" in
  let? cotton := getitem prices "cotton" in
  let? cotton_price := getitem cotton "price" in
  let? rice := getitem prices "rice" in
  let? rice_price := getitem rice "price" in
  Ok (nl ++ "Current Weather: " ++ fmt current ++ nl
      ++ "Mandi Prices (PKR): Wheat: " ++ fmt wheat_price ++ "/"
      ++ fmt wheat_unit ++ ", " ++ nl
      ++ "Cotton: " ++ fmt cotton_price ++ ", Rice: " ++ fmt rice_price ++ nl).

(** The two f-strings that carry the farmer's text, lines 95 and 105. *)
Definition text_prompt (context language message : string) : string :=
  "Context:" ++ nl ++ context ++ nl ++ nl
  ++ "Farmer Query (" ++ language ++ "): " ++ message.

Definition image_prompt (context language message : string) : string :=
  "Context:" ++ nl ++ context ++ nl ++ nl
  ++ "Analyze this crop image and provide advice (" ++ language ++ "): "
  ++ message.

(** [chat], lines 72-126. *)
Definition chat (form : ChatForm) : M val :=
  weather <- get_weather (latitude form) (longitude form) ;;
  let prices := get_mandi_prices in
  context <- lift (chat_context weather prices) ;;
  let messages :=
    VList [
      VDict [("role", VStr "system"); ("content", VStr SYSTEM_PROMPT)];
      VDict [("role", VStr "user");
             ("content", VStr (text_prompt context (language form) (message form)))]
    ] in
  selected <-
    (* [if image:] an UploadFile object is true, [None] is false *)
    match image form with
    | Some image =>
        let img_bytes := read image in
        let img_b64 := b64encode img_bytes in
        messages' <- lift (setitem2 messages 1 "content" (VList [
          VDict [("type", VStr "text");
                 ("text", VStr (image_prompt context (language form) (message form)))];
          VDict [("type", VStr "image_url");
                 ("image_url",
                  VDict [("url", VStr ("data:image/jpeg;base64," ++ img_b64))])]
        ])) ;;
        ret (messages', VISION_MODEL)
    | None => ret (messages, TEXT_MODEL)
    end ;;
  let messages := fst selected in
  let model := snd selected in
  response <- groq_chat_completions_create [
    ("model", VStr model);
    ("messages", messages);
    ("temperature", VFloat 0.3%float);
    ("max_tokens", VInt 2000)
  ] ;;
  choice <- lift (index (choices response) 0) ;;
  let text := match content (choice_message choice) with
              | Some s => VStr s
              | None => VNone
              end in
  usage <- lift (match usage response with
                 | Some u => Ok u
                 | None => Raise AttributeError
                 end) ;;
  ret (VDict [
    ("response", text);
    ("weather", weather);
    ("prices", prices);
    ("model", VStr model);
    ("latency_ms", VInt (total_tokens usage))
  ]).

(** [prices], lines 128-131. *)
Definition prices : M val := ret get_mandi_prices.

(** [weather], lines 133-136. *)
Definition weather (lat lon : float) : M val := get_weather lat lon.

(** [health], lines 138-140. *)
Definition health : M val :=
  ret (VDict [("status", VStr "healthy"); ("service", VStr "kissan-dost")]).

End Handlers.

(** *** Reading a logged completion request *)

(** [kw["messages"][1]["content"]]. *)
Definition user_content (kw : kwargs) : result val :=
  let? messages := getitem (VDict kw) "messages" in
  let? user := getindex messages 1 in
  getitem user "content".

(** The text the user message carries: the content itself when it is a
    str, the text of its first part when it is a list of parts. *)
Definition prompt_text (kw : kwargs) : result string :=
  let? c := user_content kw in
  match c with
  | VStr s => Ok s
  | VList _ =>
      let? part := getindex c 0 in
      let? t := getitem part "text" in
      match t with
      | VStr s => Ok s
      | _ => Raise TypeError
      end
  | _ => Raise TypeError
  end.

(** *** Sample worlds and requests *)

Definition sample_float_repr (f : float) : string :=
  if (f =? default_latitude)%float then "31.5204"
  else if (f =? default_longitude)%float then "74.3587"
  else "0.0".

Definition sample_str_repr (s : string) : string := "'" ++ s ++ "'".

Definition sample_completion : ChatCompletion :=
  {| choices := [ {| choice_message := {| content := Some "T" |} |} ];
     usage := Some {| total_tokens := 812 |} |}.

Definition sample_snapshot : val :=
  VDict [("latitude", VFloat 31.5%float);
         ("current", VDict [("temperature_2m", VInt 31);
                            ("relative_humidity_2m", VInt 40);
                            ("precipitation", VInt 0)]);
         ("daily", VDict [("precipitation_sum", VList [VInt 0; VInt 2])])].

(** Both providers answer. *)
Definition world_up : World :=
  {| httpx_get := fun _ => Ok {| status_code := 200; json := Ok sample_snapshot |};
     groq_create := fun _ => Ok sample_completion |}.

(** The weather provider answers 503. *)
Definition world_weather_503 : World :=
  {| httpx_get := fun _ => Ok {| status_code := 503; json := Raise JSONDecodeError |};
     groq_create := fun _ => Ok sample_completion |}.

(** The weather provider cannot be reached. *)
Definition world_weather_down : World :=
  {| httpx_get := fun _ => Raise TransportError;
     groq_create := fun _ => Ok sample_completion |}.

Definition text_request : ChatForm :=
  form "gandum ka ilaj" (Some "ur") None None None.

Definition jpeg_upload : UploadFile :=
  {| filename := Some "leaf.jpg";
     content_type := Some "image/jpeg";
     file := [Byte.xff; Byte.xd8; Byte.xff; Byte.xe0] |}.

Definition png_upload : UploadFile :=
  {| filename := Some "leaf.png";
     content_type := Some "image/png";
     file := [Byte.x89; Byte.x50; Byte.x4e; Byte.x47] |}.

Definition empty_upload : UploadFile :=
  {| filename := Some "empty.jpg";
     content_type := Some "image/jpeg";
     file := [] |}.

Definition image_request : ChatForm :=
  form "patton par daagh" (Some "ur") (Some jpeg_upload) None None.

Definition empty_image_request : ChatForm :=
  form "patton par daagh" (Some "ur") (Some empty_upload) None None.

Definition png_request : ChatForm :=
  form "patton par daagh" (Some "pa") (Some png_upload) (Some 30.1575%float)
       (Some 71.5249%float).

(** The completion requests logged in a run, and the value returned. *)
Definition sent (t : list call) : list kwargs :=
  flat_map (fun c => match c with GroqCreate kw => [kw] | HttpGet _ => [] end) t.

Definition sample_run (f : ChatForm) (w : World) : list call * result val :=
  chat sample_float_repr sample_str_repr f w.

Definition sample_kw (f : ChatForm) (w : World) : kwargs :=
  hd [] (sent (calls (sample_run f w))).

Definition sample_response (f : ChatForm) (w : World) : val :=
  match outcome (sample_run f w) with
  | Ok r => r
  | Raise _ => VNone
  end.

(** *** The request and the reply in closed form

    What [chat] sends and returns once the weather snapshot and the
    context text are known; [chat_run] below proves that [chat] computes
    exactly these. *)

Definition expected_model (f : ChatForm) : string :=
  match image f with
  | Some _ => VISION_MODEL
  | None => TEXT_MODEL
  end.

Definition expected_content (f : ChatForm) (context : string) : val :=
  match image f with
  | Some up =>
      VList [
        VDict [("type", VStr "text");
               ("text", VStr (image_prompt context (language f) (message f)))];
        VDict [("type", VStr "image_url");
               ("image_url",
                VDict [("url", VStr ("data:image/jpeg;base64," ++ b64encode (file up)))])]
      ]
  | None => VStr (text_prompt context (language f) (message f))
  end.


Definition expected_request (f : ChatForm) (context : string) : kwargs :=
  [("model", VStr (expected_model f));
   ("messages",
    VList [VDict [("role", VStr "system"); ("content", VStr SYSTEM_PROMPT)];
           VDict [("role", VStr "user"); ("content", expected_content f context)]]);
   ("temperature", VFloat 0.3%float);
   ("max_tokens", VInt 2000)].

Definition expected_reply (f : ChatForm) (snapshot : val) (c : ChatCompletion)
  : result val :=
  let? choice := index (choices c) 0 in
  let? u := match usage c with Some u => Ok u | None => Raise AttributeError end in
  Ok (VDict [
    ("response", match content (choice_message choice) with
                 | Some s => VStr s
                 | None => VNone
                 end);
    ("weather", snapshot);
    ("prices", get_mandi_prices);
    ("model", VStr (expected_model f));
    ("latency_ms", VInt (total_tokens u))
  ]).

(** *** More readers, requests and worlds *)

(** [v[k1][k2]]. *)
Definition getitem2 (v : val) (k1 k2 : string) : result val :=
  let? x := getitem v k1 in getitem x k2.

(** [v[i][key]]. *)
Definition getindexitem (v : val) (i : nat) (key : string) : result val :=
  let? item := getindex v i in getitem item key.

(** The same form with another upload in the [image] field. *)
Definition with_image (f : ChatForm) (up : option UploadFile) : ChatForm :=
  {| message := message f;
     language := language f;
     image := up;
     latitude := latitude f;
     longitude := longitude f |}.

(** The weather provider answers 200 with a body that is not JSON. *)
Definition world_weather_bad_body : World :=
  {| httpx_get := fun _ => Ok {| status_code := 200; json := Raise JSONDecodeError |};
     groq_create := fun _ => Ok sample_completion |}.

(** The weather provider answers 200 with a JSON object that has no
    [current] entry. *)
Definition world_weather_no_current : World :=
  {| httpx_get := fun _ =>
       Ok {| status_code := 200;
             json := Ok (VDict [("error", VBool true);
                                ("reason", VStr "Latitude must be in range")]) |};
     groq_create := fun _ => Ok sample_completion |}.

(** The weather provider answers 200 with a JSON array. *)
Definition world_weather_array : World :=
  {| httpx_get := fun _ =>
       Ok {| status_code := 200; json := Ok (VList [VInt 1; VInt 2]) |};
     groq_create := fun _ => Ok sample_completion |}.

(** The weather provider answers 200 with the JSON value [null]. *)
Definition world_weather_null : World :=
  {| httpx_get := fun _ => Ok {| status_code := 200; json := Ok VNone |};
     groq_create := fun _ => Ok sample_completion |}.

(** The completion provider refuses the call. *)
Definition world_groq_down : World :=
  {| httpx_get := fun _ => Ok {| status_code := 200; json := Ok sample_snapshot |};
     groq_create := fun _ => Raise APIError |}.

(** The completion provider answers without choices and without usage. *)
Definition world_groq_no_choices : World :=
  {| httpx_get := fun _ => Ok {| status_code := 200; json := Ok sample_snapshot |};
     groq_create := fun _ => Ok {| choices := []; usage := None |} |}.

(** The completion provider answers with a choice but without usage. *)
Definition world_groq_no_usage : World :=
  {| httpx_get := fun _ => Ok {| status_code := 200; json := Ok sample_snapshot |};
     groq_create := fun _ =>
       Ok {| choices := [ {| choice_message := {| content := None |} |} ];
             usage := None |} |}.

(** [kw["messages"][1]["content"][1]["image_url"]["url"]]. *)
Definition image_url (kw : kwargs) : result val :=
  let? c := user_content kw in
  let? part := getindex c 1 in
  let? ref := getitem part "image_url" in
  getitem ref "url".

(** The bytes of [jpeg_upload] under another name and declared type. *)
Definition renamed_upload : UploadFile :=
  {| filename := Some "scan.png";
     content_type := Some "image/png";
     file := file jpeg_upload |}.

(** [image_request] sent from other coordinates. *)
Definition image_request_multan : ChatForm :=
  form "patton par daagh" (Some "ur") (Some jpeg_upload) (Some 30.1575%float)
       (Some 71.5249%float).

(** A table with other trends and without sugarcane and maize. *)
Definition short_table : val :=
  VDict [
    ("rice", VDict [("price", VInt 5800)]);
    ("wheat", VDict [("unit", VStr "40kg"); ("price", VInt 4200)]);
    ("cotton", VDict [("price", VInt 8500); ("trend", VStr "down")])
  ].

Definition two_messages : val :=
  VList [VDict [("role", VStr "system"); ("content", VStr "S")];
         VDict [("role", VStr "user"); ("content", VStr "U")]].

End Main.


Import Main.

(* ================================================================= *)
(** ** The encoder is the inverse of the strict decoder *)

Section Base64Facts.
Import Base64.
Local Open Scope N_scope.

Lemma small_cases (P : N -> Prop) :
  (forall k, (k < 64)%nat -> P (N.of_nat k)) -> forall i, i < 64 -> P i.
Proof.
  intros H i Hi. rewrite <- (N2Nat.id i). apply H. lia.
Qed.

Lemma dec6_enc6 i : i < 64 -> dec6 (enc6 i) = Some i.
Proof.
  revert i. apply small_cases. intros k Hk.
  do 64 (destruct k as [|k]; [reflexivity|]). lia.
Qed.

Lemma enc6_not_pad i : i < 64 -> Ascii.eqb (enc6 i) pad = false.
Proof.
  revert i. apply small_cases. intros k Hk.
  do 64 (destruct k as [|k]; [reflexivity|]). lia.
Qed.

Lemma sextet_lt n k : sextet n k < 64.
Proof.
  unfold sextet. change 63 with (N.ones 6). rewrite N.land_ones.
  apply N.mod_lt. discriminate.
Qed.

Lemma sextet_spec n k : sextet n k = (n / 2 ^ (6 * k)) mod 64.
Proof.
  unfold sextet. change 63 with (N.ones 6).
  now rewrite N.land_ones, N.shiftr_div_pow2.
Qed.

Lemma group_spec a b c :
  group a b c = Byte.to_N a * 65536 + Byte.to_N b * 256 + Byte.to_N c.
Proof. unfold group. now rewrite !N.shiftl_mul_pow2. Qed.

Lemma ungroup_spec i3 i2 i1 i0 :
  ungroup i3 i2 i1 i0 = i3 * 262144 + i2 * 4096 + i1 * 64 + i0.
Proof. unfold ungroup. now rewrite !N.shiftl_mul_pow2. Qed.

Lemma octet_spec n k : octet n k = Byte.of_N ((n / 2 ^ (8 * k)) mod 256).
Proof.
  unfold octet. change 255 with (N.ones 8).
  now rewrite N.land_ones, N.shiftr_div_pow2.
Qed.

Ltac b64_arith :=
  rewrite ?octet_spec, ?ungroup_spec, ?sextet_spec, ?group_spec;
  change (2 ^ (6 * 3)) with 262144; change (2 ^ (6 * 2)) with 4096;
  change (2 ^ (6 * 1)) with 64; change (2 ^ (6 * 0)) with 1;
  change (2 ^ (8 * 2)) with 65536; change (2 ^ (8 * 1)) with 256;
  change (2 ^ (8 * 0)) with 1; change (Byte.to_N zero) with 0;
  repeat match goal with
         | |- context [Byte.to_N ?x] =>
             pose proof (Byte.to_N_bounded x); generalize dependent (Byte.to_N x); intros
         end.

Ltac b64_solve :=
  b64_arith; zify; Z.to_euclidean_division_equations; lia.

Lemma octets3 a b c :
  forall n, n = group a b c ->
  forall m, m = ungroup (sextet n 3) (sextet n 2) (sextet n 1) (sextet n 0) ->
  octet m 2 = Some a /\ octet m 1 = Some b /\ octet m 0 = Some c.
Proof.
  intros n -> m ->. rewrite !octet_spec.
  repeat split; apply Byte.to_of_N_iff; b64_solve.
Qed.

Lemma octets2 a b :
  forall n, n = group a b zero ->
  forall m, m = ungroup (sextet n 3) (sextet n 2) (sextet n 1) 0 ->
  octet m 2 = Some a /\ octet m 1 = Some b.
Proof.
  intros n -> m ->. rewrite !octet_spec.
  split; apply Byte.to_of_N_iff; b64_solve.
Qed.

Lemma octets1 a :
  forall n, n = group a zero zero ->
  octet (ungroup (sextet n 3) (sextet n 2) 0 0) 2 = Some a.
Proof.
  intros n ->. rewrite !octet_spec.
  apply Byte.to_of_N_iff; b64_solve.
Qed.

Lemma b64decode_fuel_b64encode fuel :
  forall bs, (length bs < fuel)%nat -> b64decode_fuel fuel (b64encode bs) = Some bs.
Proof.
  induction fuel as [|fuel IH]; intros bs Hlen; [inversion Hlen|].
  destruct bs as [|a [|b [|c rest]]].
  - reflexivity.
  - cbn [b64encode b64decode_fuel].
    rewrite !dec6_enc6 by apply sextet_lt.
    change (Ascii.eqb pad pad) with true. cbv iota.
    now rewrite (octets1 a _ eq_refl).
  - cbn [b64encode b64decode_fuel].
    rewrite !dec6_enc6 by apply sextet_lt.
    rewrite enc6_not_pad by apply sextet_lt.
    change (Ascii.eqb pad pad) with true. cbv iota.
    destruct (octets2 a b _ eq_refl _ eq_refl) as [-> ->]. reflexivity.
  - cbn [b64encode b64decode_fuel].
    rewrite !dec6_enc6 by apply sextet_lt.
    rewrite !enc6_not_pad by apply sextet_lt.
    destruct (octets3 a b c _ eq_refl _ eq_refl) as (-> & -> & ->).
    rewrite IH by (cbn [length] in Hlen; lia). reflexivity.
Qed.

Lemma b64encode_length bs : (length bs <= String.length (b64encode bs))%nat.
Proof.
  assert (H : forall n bs, (length bs <= n)%nat ->
                           (length bs <= String.length (b64encode bs))%nat).
  { induction n as [|n IH]; intros l Hl.
    - destruct l; [apply Nat.le_refl | inversion Hl].
    - destruct l as [|a [|b [|c rest]]]; cbn [b64encode String.length length]; try lia.
      cbn [length] in Hl. specialize (IH rest). lia. }
  now apply (H (length bs)).
Qed.

Theorem b64decode_b64encode bs : b64decode (b64encode bs) = Some bs.
Proof.
  unfold b64decode. apply b64decode_fuel_b64encode.
  pose proof (b64encode_length bs). lia.
Qed.

(** The encoder on the bytes of [M], [Ma], [Man] and on bytes with the
    high bits set, as CPython prints them. *)
Example b64encode_vectors :
  map b64encode
      [[]; [Byte.x4d]; [Byte.x4d; Byte.x61]; [Byte.x4d; Byte.x61; Byte.x6e];
       [Byte.xff; Byte.xfe; Byte.xfd; Byte.xfc]]
  = [""; "TQ=="; "TWE="; "TWFu"; "//79/A=="]%string.
Proof. reflexivity. Qed.

End Base64Facts.

(* ================================================================= *)
(** ** The pipeline of [chat] *)

Section Pipeline.
Import Base64.
Variable float_repr : float -> string.
Variable str_repr : string -> string.

Lemma get_weather_run lat lon w :
  get_weather float_repr lat lon w =
  ([HttpGet (weather_url float_repr lat lon)],
   match httpx_get w (weather_url float_repr lat lon) with
   | Ok resp => if (status_code resp =? 200)%Z then json resp else Ok VNone
   | Raise e => Raise e
   end).
Proof.
  unfold get_weather, bind, client_get, lift, ret.
  destruct (httpx_get w _) as [resp|e]; [|reflexivity].
  destruct (status_code resp =? 200)%Z; [|reflexivity].
  destruct (json resp); reflexivity.
Qed.

Lemma chat_context_static snapshot :
  chat_context float_repr str_repr snapshot get_mandi_prices =
  (let? current :=
     (if truthy snapshot then getitem snapshot "current" else Ok (VStr "N/A")) in
   Ok (nl ++ "Current Weather: " ++ fmt float_repr str_repr current ++ nl
       ++ "Mandi Prices (PKR): Wheat: 4200/40kg, " ++ nl
       ++ "Cotton: 8500, Rice: 5800" ++ nl)).
Proof.
  unfold chat_context.
  destruct (if truthy snapshot then _ else _); reflexivity.
Qed.

Lemma setitem2_content sys role c c' :
  setitem2 (VList [sys; VDict [("role", role); ("content", c)]]) 1 "content" c'
  = Ok (VList [sys; VDict [("role", role); ("content", c')]]).
Proof. reflexivity. Qed.

Lemma chat_run f w :
  chat float_repr str_repr f w =
  let url := weather_url float_repr (latitude f) (longitude f) in
  match outcome (get_weather float_repr (latitude f) (longitude f) w) with
  | Raise e => ([HttpGet url], Raise e)
  | Ok snapshot =>
      match chat_context float_repr str_repr snapshot get_mandi_prices with
      | Raise e => ([HttpGet url], Raise e)
      | Ok context =>
          ([HttpGet url; GroqCreate (expected_request f context)],
           (let? c := groq_create w (expected_request f context) in
            expected_reply f snapshot c))
      end
  end.
Proof.
  unfold chat. unfold bind at 1. rewrite get_weather_run. cbn [outcome snd].
  cbv zeta. set (url := weather_url _ _ _).
  destruct (match httpx_get w url with Ok _ => _ | Raise _ => _ end)
    as [snapshot|e]; [|reflexivity].
  unfold bind at 1. unfold lift at 1.
  destruct (chat_context float_repr str_repr snapshot get_mandi_prices)
    as [context|e]; [|reflexivity].
  unfold expected_request, expected_reply, expected_content, expected_model.
  destruct (image f) as [up|].
  - rewrite setitem2_content. unfold read.
    unfold bind, lift, ret, groq_chat_completions_create.
    cbv beta iota zeta. cbn [fst snd app].
    destruct (groq_create w _) as [c|e]; [|reflexivity].
    destruct (index (choices c) 0); [|reflexivity].
    destruct (usage c); reflexivity.
  - unfold bind, lift, ret, groq_chat_completions_create.
    cbv beta iota zeta. cbn [fst snd app].
    destruct (groq_create w _) as [c|e]; [|reflexivity].
    destruct (index (choices c) 0); [|reflexivity].
    destruct (usage c); reflexivity.
Qed.

Lemma chat_sends f w snapshot context :
  outcome (get_weather float_repr (latitude f) (longitude f) w) = Ok snapshot ->
  chat_context float_repr str_repr snapshot get_mandi_prices = Ok context ->
  calls (chat float_repr str_repr f w) =
  [HttpGet (weather_url float_repr (latitude f) (longitude f));
   GroqCreate (expected_request f context)].
Proof.
  intros Hw Hc. rewrite chat_run. cbv zeta. now rewrite Hw, Hc.
Qed.

Lemma chat_sends_inv f w kw :
  In (GroqCreate kw) (calls (chat float_repr str_repr f w)) ->
  exists snapshot context,
    outcome (get_weather float_repr (latitude f) (longitude f) w) = Ok snapshot /\
    chat_context float_repr str_repr snapshot get_mandi_prices = Ok context /\
    kw = expected_request f context /\
    calls (chat float_repr str_repr f w) =
    [HttpGet (weather_url float_repr (latitude f) (longitude f)); GroqCreate kw].
Proof.
  rewrite chat_run. cbv zeta.
  destruct (outcome (get_weather _ _ _ w)) as [snapshot|e].
  - destruct (chat_context _ _ snapshot _) as [context|e] eqn:Hc;
      cbn [calls fst In].
    + intros [H|[H|[]]]; [discriminate|]. injection H as <-.
      exists snapshot, context. auto.
    + intros [H|[]]. discriminate.
  - cbn [calls fst In]. intros [H|[]]. discriminate.
Qed.

Lemma chat_returns_inv f w resp :
  outcome (chat float_repr str_repr f w) = Ok resp ->
  exists snapshot context c,
    outcome (get_weather float_repr (latitude f) (longitude f) w) = Ok snapshot /\
    chat_context float_repr str_repr snapshot get_mandi_prices = Ok context /\
    groq_create w (expected_request f context) = Ok c /\
    expected_reply f snapshot c = Ok resp.
Proof.
  rewrite chat_run. cbv zeta.
  destruct (outcome (get_weather _ _ _ w)) as [snapshot|e]; [|discriminate].
  destruct (chat_context _ _ snapshot _) as [context|e] eqn:Hctx; [|discriminate].
  cbn [outcome snd].
  destruct (groq_create w _) as [c|e] eqn:Hc; [|discriminate].
  intros H. now exists snapshot, context, c.
Qed.

Lemma expected_reply_inv f snapshot c resp :
  expected_reply f snapshot c = Ok resp ->
  exists choice u,
    index (choices c) 0 = Ok choice /\ usage c = Some u /\
    resp = VDict [
      ("response", match content (choice_message choice) with
                   | Some s => VStr s
                   | None => VNone
                   end);
      ("weather", snapshot);
      ("prices", get_mandi_prices);
      ("model", VStr (expected_model f));
      ("latency_ms", VInt (total_tokens u))].
Proof.
  unfold expected_reply.
  destruct (index (choices c) 0) as [choice|e]; [|discriminate].
  destruct (usage c) as [u|]; [|discriminate].
  intros H. injection H as <-. now exists choice, u.
Qed.

Lemma prefix_app s t : String.prefix s (s ++ t) = true.
Proof.
  induction s as [|c s IH]; cbn.
  - now destruct t.
  - destruct (ascii_dec c c) as [_|n]; [exact IH | now elim n].
Qed.

Lemma weather_transport_failure_escapes f w e :
  httpx_get w (weather_url float_repr (latitude f) (longitude f)) = Raise e ->
  chat float_repr str_repr f w =
  ([HttpGet (weather_url float_repr (latitude f) (longitude f))], Raise e).
Proof.
  intros H. rewrite chat_run, get_weather_run. cbv zeta. cbn [outcome snd].
  now rewrite H.
Qed.

Lemma weather_status_failure_absorbed f w resp :
  httpx_get w (weather_url float_repr (latitude f) (longitude f)) = Ok resp ->
  status_code resp <> 200%Z ->
  outcome (get_weather float_repr (latitude f) (longitude f) w) = Ok VNone /\
  forall c choice u,
    groq_create w (expected_request f (nl ++ "Current Weather: N/A" ++ nl
         ++ "Mandi Prices (PKR): Wheat: 4200/40kg, " ++ nl
         ++ "Cotton: 8500, Rice: 5800" ++ nl)) = Ok c ->
    index (choices c) 0 = Ok choice ->
    usage c = Some u ->
    exists resp',
      outcome (chat float_repr str_repr f w) = Ok resp' /\
      getitem resp' "weather" = Ok VNone /\
      getitem resp' "prices" = Ok get_mandi_prices.
Proof.
  intros H Hs.
  assert (Hw : outcome (get_weather float_repr (latitude f) (longitude f) w)
               = Ok VNone).
  { rewrite get_weather_run. cbn [outcome snd]. rewrite H.
    destruct (Z.eqb_spec (status_code resp) 200); [contradiction | reflexivity]. }
  split; [exact Hw|]. intros c choice u Hc Hch Hu.
  rewrite chat_run. cbv zeta. rewrite Hw, chat_context_static.
  cbn [truthy]. cbv iota. cbn [outcome snd]. unfold fmt, Py.str.
  change (nl ++ "Current Weather: " ++ "N/A" ++ nl
          ++ "Mandi Prices (PKR): Wheat: 4200/40kg, " ++ nl
          ++ "Cotton: 8500, Rice: 5800" ++ nl)
    with (nl ++ "Current Weather: N/A" ++ nl
          ++ "Mandi Prices (PKR): Wheat: 4200/40kg, " ++ nl
          ++ "Cotton: 8500, Rice: 5800" ++ nl).
  rewrite Hc. unfold expected_reply. rewrite Hch, Hu.
  eexists. split; [reflexivity|]. split; reflexivity.
Qed.

(** C1 (as the code has it): the model named in the completion request
    is the text model when the form carries no image, and the vision
    model when it carries one, whatever the bytes of the upload, the
    empty upload included. *)
Theorem C1_model_follows_attachment f w kw :
  In (GroqCreate kw) (calls (chat float_repr str_repr f w)) ->
  (image f = None -> lookup "model" kw = Some (VStr TEXT_MODEL)) /\
  (forall up, image f = Some up -> lookup "model" kw = Some (VStr VISION_MODEL)).
Proof.
  intros H. destruct (chat_sends_inv _ _ _ H) as (s & c & _ & _ & -> & _).
  unfold expected_request, expected_model.
  split; [intros -> | intros up ->]; reflexivity.
Qed.

(** C3: every completion request carries exactly two messages; the first
    has role [system] and content [SYSTEM_PROMPT], the second has role
    [user], for every message text, language and attachment. *)
Theorem C3_system_message_first f w kw :
  In (GroqCreate kw) (calls (chat float_repr str_repr f w)) ->
  exists user,
    lookup "messages" kw =
    Some (VList [VDict [("role", VStr "system"); ("content", VStr SYSTEM_PROMPT)];
                 user]) /\
    getitem user "role" = Ok (VStr "user").
Proof.
  intros H. destruct (chat_sends_inv _ _ _ H) as (s & c & _ & _ & -> & _).
  eexists. split; reflexivity.
Qed.

(** C4: when the request names the vision model, the content of the user
    message is a list of two parts, a text part and then an image part
    whose URL is [data:image/jpeg;base64,] followed by the base64
    encoding of the uploaded bytes (which decodes back to them); the
    declared content type of the upload plays no part. *)
Theorem C4_image_user_content f w kw :
  In (GroqCreate kw) (calls (chat float_repr str_repr f w)) ->
  lookup "model" kw = Some (VStr VISION_MODEL) ->
  exists up text url,
    image f = Some up /\
    user_content kw =
    Ok (VList [VDict [("type", VStr "text"); ("text", VStr text)];
               VDict [("type", VStr "image_url");
                      ("image_url", VDict [("url", VStr url)])]]) /\
    url = "data:image/jpeg;base64," ++ b64encode (file up) /\
    String.prefix "data:image/jpeg;base64," url = true /\
    b64decode (b64encode (file up)) = Some (file up).
Proof.
  intros H Hm. destruct (chat_sends_inv _ _ _ H) as (s & c & _ & _ & -> & _).
  unfold expected_request, expected_model in Hm.
  destruct (image f) as [up|] eqn:Hi; [|discriminate].
  exists up. do 2 eexists. split; [reflexivity|].
  unfold user_content, expected_request, expected_content. rewrite Hi.
  split; [reflexivity|]. split; [reflexivity|].
  split; [apply prefix_app | apply b64decode_b64encode].
Qed.

(** C5: when [chat] returns, [latency_ms] in the returned dict is the
    [usage.total_tokens] of the completion the provider answered to the
    request of this call. *)
Theorem C5_latency_is_token_count f w resp :
  outcome (chat float_repr str_repr f w) = Ok resp ->
  exists kw c u,
    In (GroqCreate kw) (calls (chat float_repr str_repr f w)) /\
    groq_create w kw = Ok c /\
    usage c = Some u /\
    getitem resp "latency_ms" = Ok (VInt (total_tokens u)).
Proof.
  intros H. destruct (chat_returns_inv _ _ _ H) as (s & ctx & c & Hw & Hc & Hg & Hr).
  destruct (expected_reply_inv _ _ _ _ Hr) as (choice & u & _ & Hu & ->).
  exists (expected_request f ctx), c, u. repeat split; trivial.
  rewrite (chat_sends _ _ _ _ Hw Hc). right. now left.
Qed.

(** C6: when the request names the text model, the content of the user
    message is the single string
    ["Context:\n<context>\n\nFarmer Query (<language>): <message>"],
    where [<context>] is the context text built from the weather
    snapshot and the price table. *)
Theorem C6_text_user_content f w kw :
  In (GroqCreate kw) (calls (chat float_repr str_repr f w)) ->
  lookup "model" kw = Some (VStr TEXT_MODEL) ->
  exists snapshot context,
    outcome (get_weather float_repr (latitude f) (longitude f) w) = Ok snapshot /\
    chat_context float_repr str_repr snapshot get_mandi_prices = Ok context /\
    user_content kw =
    Ok (VStr ("Context:" ++ nl ++ context ++ nl ++ nl
              ++ "Farmer Query (" ++ language f ++ "): " ++ message f)).
Proof.
  intros H Hm. destruct (chat_sends_inv _ _ _ H) as (s & c & Hw & Hc & -> & _).
  unfold expected_request, expected_model in Hm.
  destruct (image f) as [up|] eqn:Hi; [discriminate|].
  exists s, c. repeat split; trivial.
  unfold user_content, expected_request, expected_content. now rewrite Hi.
Qed.

(** C7: every completion request passes exactly the selected model, the
    two-message list, temperature 0.3 and max_tokens 2000; it passes
    neither [stream] nor [n], so the provider's defaults apply (one
    completion, not streamed), and it is the only completion request of
    the call. *)
Theorem C7_fixed_generation_parameters f w kw :
  In (GroqCreate kw) (calls (chat float_repr str_repr f w)) ->
  exists system user,
    kw = [("model", VStr (match image f with
                          | Some _ => VISION_MODEL
                          | None => TEXT_MODEL
                          end));
          ("messages", VList [system; user]);
          ("temperature", VFloat 0.3%float);
          ("max_tokens", VInt 2000)] /\
    lookup "stream" kw = None /\
    lookup "n" kw = None /\
    calls (chat float_repr str_repr f w) =
    [HttpGet (weather_url float_repr (latitude f) (longitude f)); GroqCreate kw].
Proof.
  intros H. destruct (chat_sends_inv _ _ _ H) as (s & c & _ & _ & -> & Hcalls).
  do 2 eexists. split; [reflexivity|]. repeat split. exact Hcalls.
Qed.

(** C8: [prices] returns the table of [get_mandi_prices]; the table has
    the five commodities, each with a price, a unit and a trend; wheat
    is 4200 per 40kg, trend up; and the [prices] field of every dict
    that [chat] returns is this table. *)
Theorem C8_price_table_constant :
  (forall w, prices w = ([], Ok get_mandi_prices)) /\
  map fst (items get_mandi_prices) = ["wheat"; "cotton"; "rice"; "sugarcane"; "maize"] /\
  (forall name entry, In (name, entry) (items get_mandi_prices) ->
     exists p u t,
       entry = VDict [("price", VInt p); ("unit", VStr u); ("trend", VStr t)] /\
       In t ["up"; "down"; "stable"]) /\
  getitem get_mandi_prices "wheat" =
    Ok (VDict [("price", VInt 4200); ("unit", VStr "40kg"); ("trend", VStr "up")]) /\
  (forall f w resp,
     outcome (chat float_repr str_repr f w) = Ok resp ->
     getitem resp "prices" = Ok get_mandi_prices).
Proof.
  split; [reflexivity|]. split; [reflexivity|]. split.
  - intros name entry H. cbn in H.
    destruct H as [H|[H|[H|[H|[H|[]]]]]]; injection H as <- <-;
      do 3 eexists; (split; [reflexivity|]); cbn; tauto.
  - split; [reflexivity|]. intros f w resp H.
    destruct (chat_returns_inv _ _ _ H) as (s & ctx & c & _ & _ & _ & Hr).
    destruct (expected_reply_inv _ _ _ _ Hr) as (choice & u & _ & _ & ->).
    reflexivity.
Qed.



End Pipeline.

(* ================================================================= *)
(** ** Concrete runs *)

Section Runs.
Local Open Scope list_scope.
Local Open Scope string_scope.

Ltac logged := vm_compute; right; left; reflexivity.

(** The prompt is 1117 characters, 1165 bytes of UTF-8. *)
Example SYSTEM_PROMPT_size : String.length SYSTEM_PROMPT = 1165%nat.
Proof. reflexivity. Qed.

Example repr_of_current :
  Py.str sample_float_repr sample_str_repr
    (VDict [("temperature_2m", VInt 31); ("is_day", VBool true);
            ("gusts", VList [VInt 4; VNone])])
  = "{'temperature_2m': 31, 'is_day': True, 'gusts': [4, None]}".
Proof. reflexivity. Qed.

(** A text request with both providers up: the reply carries the
    provider's text, the text model, the snapshot and the table. *)
Example text_round_trip :
  calls (sample_run text_request world_up)
  = [HttpGet (weather_url sample_float_repr default_latitude default_longitude);
     GroqCreate (sample_kw text_request world_up)] /\
  getitem (sample_response text_request world_up) "response" = Ok (VStr "T") /\
  getitem (sample_response text_request world_up) "model" = Ok (VStr TEXT_MODEL) /\
  getitem (sample_response text_request world_up) "weather" = Ok sample_snapshot /\
  getitem (sample_response text_request world_up) "prices" = Ok get_mandi_prices /\
  prompt_text (sample_kw text_request world_up)
  = Ok ("Context:" ++ nl ++ nl
        ++ "Current Weather: {'temperature_2m': 31, 'relative_humidity_2m': 40, "
        ++ "'precipitation': 0}" ++ nl
        ++ "Mandi Prices (PKR): Wheat: 4200/40kg, " ++ nl
        ++ "Cotton: 8500, Rice: 5800" ++ nl ++ nl ++ nl
        ++ "Farmer Query (ur): gandum ka ilaj").
Proof. repeat split. Qed.

(** The weather provider answers 503: the request goes on with [None]. *)
Example weather_503_round_trip :
  getitem (sample_response text_request world_weather_503) "weather" = Ok VNone /\
  getitem (sample_response text_request world_weather_503) "prices"
  = Ok get_mandi_prices /\
  getitem (sample_response text_request world_weather_503) "response"
  = Ok (VStr "T").
Proof. repeat split. Qed.

(** C2: with the weather provider unreachable, the exception of the GET
    leaves [chat]: the completion provider is never called and there is
    no response, where the claim has a null weather field and a
    successful request. *)
Lemma C2_transport_failure_is_fatal :
  sample_run text_request world_weather_down =
  ([HttpGet ("https://api.open-meteo.com/v1/forecast?latitude=31.5204"
             ++ "&longitude=74.3587"
             ++ "&current=temperature_2m,relative_humidity_2m,precipitation"
             ++ "&daily=precipitation_sum&timezone=Asia/Karachi")],
   Raise TransportError).
Proof. reflexivity. Qed.

(** C1, third clause as stated: an attached image of zero bytes would
    select the text model. It does not: the request carries the vision
    model. *)
Lemma C1_zero_byte_image_counterexample :
  image empty_image_request = Some empty_upload /\
  file empty_upload = [] /\
  ~ (forall kw,
       In (GroqCreate kw) (calls (sample_run empty_image_request world_up)) ->
       lookup "model" kw = Some (VStr TEXT_MODEL)).
Proof.
  split; [reflexivity|]. split; [reflexivity|]. intros H.
  specialize (H (sample_kw empty_image_request world_up)).
  assert (Hin : In (GroqCreate (sample_kw empty_image_request world_up))
                   (calls (sample_run empty_image_request world_up)))
    by logged.
  apply H in Hin. vm_compute in Hin. discriminate Hin.
Qed.

Lemma C1_model_follows_attachment_witness :
  In (GroqCreate (sample_kw empty_image_request world_up))
     (calls (sample_run empty_image_request world_up)) /\
  ((image empty_image_request = None ->
    lookup "model" (sample_kw empty_image_request world_up)
    = Some (VStr TEXT_MODEL)) /\
   (forall up, image empty_image_request = Some up ->
    lookup "model" (sample_kw empty_image_request world_up)
    = Some (VStr VISION_MODEL))).
Proof.
  assert (Hin : In (GroqCreate (sample_kw empty_image_request world_up))
                   (calls (sample_run empty_image_request world_up)))
    by logged.
  split; [exact Hin|].
  exact (C1_model_follows_attachment sample_float_repr sample_str_repr
           empty_image_request world_up _ Hin).
Defined.

Lemma C3_system_message_first_witness :
  In (GroqCreate (sample_kw text_request world_up))
     (calls (sample_run text_request world_up)) /\
  exists user,
    lookup "messages" (sample_kw text_request world_up) =
    Some (VList [VDict [("role", VStr "system"); ("content", VStr SYSTEM_PROMPT)];
                 user]) /\
    getitem user "role" = Ok (VStr "user").
Proof.
  assert (Hin : In (GroqCreate (sample_kw text_request world_up))
                   (calls (sample_run text_request world_up)))
    by logged.
  split; [exact Hin|].
  exact (C3_system_message_first sample_float_repr sample_str_repr
           text_request world_up _ Hin).
Defined.

Lemma C4_image_user_content_witness :
  In (GroqCreate (sample_kw png_request world_up))
     (calls (sample_run png_request world_up)) /\
  lookup "model" (sample_kw png_request world_up) = Some (VStr VISION_MODEL) /\
  exists up text url,
    image png_request = Some up /\
    user_content (sample_kw png_request world_up) =
    Ok (VList [VDict [("type", VStr "text"); ("text", VStr text)];
               VDict [("type", VStr "image_url");
                      ("image_url", VDict [("url", VStr url)])]]) /\
    url = "data:image/jpeg;base64," ++ Base64.b64encode (file up) /\
    String.prefix "data:image/jpeg;base64," url = true /\
    Base64.b64decode (Base64.b64encode (file up)) = Some (file up).
Proof.
  assert (Hin : In (GroqCreate (sample_kw png_request world_up))
                   (calls (sample_run png_request world_up)))
    by logged.
  assert (Hm : lookup "model" (sample_kw png_request world_up)
               = Some (VStr VISION_MODEL))
    by (vm_compute; reflexivity).
  split; [exact Hin|]. split; [exact Hm|].
  exact (C4_image_user_content sample_float_repr sample_str_repr
           png_request world_up _ Hin Hm).
Defined.

Lemma C5_latency_is_token_count_witness :
  outcome (sample_run text_request world_up)
  = Ok (sample_response text_request world_up) /\
  exists kw c u,
    In (GroqCreate kw) (calls (sample_run text_request world_up)) /\
    groq_create world_up kw = Ok c /\
    usage c = Some u /\
    getitem (sample_response text_request world_up) "latency_ms"
    = Ok (VInt (total_tokens u)).
Proof.
  assert (Hr : outcome (sample_run text_request world_up)
               = Ok (sample_response text_request world_up))
    by (vm_compute; reflexivity).
  split; [exact Hr|].
  exact (C5_latency_is_token_count sample_float_repr sample_str_repr
           text_request world_up _ Hr).
Defined.

Lemma C6_text_user_content_witness :
  In (GroqCreate (sample_kw text_request world_weather_503))
     (calls (sample_run text_request world_weather_503)) /\
  lookup "model" (sample_kw text_request world_weather_503)
  = Some (VStr TEXT_MODEL) /\
  exists snapshot context,
    outcome (get_weather sample_float_repr (latitude text_request)
               (longitude text_request) world_weather_503) = Ok snapshot /\
    chat_context sample_float_repr sample_str_repr snapshot get_mandi_prices
    = Ok context /\
    user_content (sample_kw text_request world_weather_503) =
    Ok (VStr ("Context:" ++ nl ++ context ++ nl ++ nl
              ++ "Farmer Query (" ++ language text_request ++ "): "
              ++ message text_request)).
Proof.
  assert (Hin : In (GroqCreate (sample_kw text_request world_weather_503))
                   (calls (sample_run text_request world_weather_503)))
    by logged.
  assert (Hm : lookup "model" (sample_kw text_request world_weather_503)
               = Some (VStr TEXT_MODEL))
    by (vm_compute; reflexivity).
  split; [exact Hin|]. split; [exact Hm|].
  exact (C6_text_user_content sample_float_repr sample_str_repr
           text_request world_weather_503 _ Hin Hm).
Defined.

Lemma C7_fixed_generation_parameters_witness :
  In (GroqCreate (sample_kw image_request world_up))
     (calls (sample_run image_request world_up)) /\
  exists system user,
    sample_kw image_request world_up =
         [("model", VStr (match image image_request with
                          | Some _ => VISION_MODEL
                          | None => TEXT_MODEL
                          end));
          ("messages", VList [system; user]);
          ("temperature", VFloat 0.3%float);
          ("max_tokens", VInt 2000)] /\
    lookup "stream" (sample_kw image_request world_up) = None /\
    lookup "n" (sample_kw image_request world_up) = None /\
    calls (chat sample_float_repr sample_str_repr image_request world_up) =
    [HttpGet (weather_url sample_float_repr (latitude image_request)
                (longitude image_request));
     GroqCreate (sample_kw image_request world_up)].
Proof.
  assert (Hin : In (GroqCreate (sample_kw image_request world_up))
                   (calls (sample_run image_request world_up)))
    by logged.
  split; [exact Hin|].
  exact (C7_fixed_generation_parameters sample_float_repr sample_str_repr
           image_request world_up _ Hin).
Defined.

Lemma C8_price_table_constant_witness :
  outcome (sample_run image_request world_weather_503)
  = Ok (sample_response image_request world_weather_503) /\
  getitem (sample_response image_request world_weather_503) "prices"
  = Ok get_mandi_prices.
Proof.
  assert (Hr : outcome (sample_run image_request world_weather_503)
               = Ok (sample_response image_request world_weather_503))
    by (vm_compute; reflexivity).
  split; [exact Hr|].
  exact (proj2 (proj2 (proj2 (proj2
           (C8_price_table_constant sample_float_repr sample_str_repr))))
           image_request world_weather_503 _ Hr).
Defined.


End Runs.

(* ================================================================= *)
(** ** Failure and edge behaviour of the handlers *)

Section Edges.
Import Base64.
Variable float_repr : float -> string.
Variable str_repr : string -> string.

Lemma get_weather_outcome lat lon w :
  outcome (get_weather float_repr lat lon w) =
  match httpx_get w (weather_url float_repr lat lon) with
  | Ok resp => if (status_code resp =? 200)%Z then json resp else Ok VNone
  | Raise e => Raise e
  end.
Proof. now rewrite get_weather_run. Qed.

Lemma chat_stops_at_weather f w e :
  outcome (get_weather float_repr (latitude f) (longitude f) w) = Raise e ->
  chat float_repr str_repr f w =
  ([HttpGet (weather_url float_repr (latitude f) (longitude f))], Raise e).
Proof. intros H. rewrite chat_run. cbv zeta. now rewrite H. Qed.

Lemma chat_stops_at_context f w snapshot e :
  outcome (get_weather float_repr (latitude f) (longitude f) w) = Ok snapshot ->
  chat_context float_repr str_repr snapshot get_mandi_prices = Raise e ->
  chat float_repr str_repr f w =
  ([HttpGet (weather_url float_repr (latitude f) (longitude f))], Raise e).
Proof. intros H Hc. rewrite chat_run. cbv zeta. now rewrite H, Hc. Qed.

(** X1: a 200 answer of the weather provider whose body does not parse
    is fatal: the exception of [resp.json()] leaves [chat] and the
    completion provider is not called. *)
Theorem chat_weather_bad_body_escapes f w resp e :
  httpx_get w (weather_url float_repr (latitude f) (longitude f)) = Ok resp ->
  status_code resp = 200%Z ->
  json resp = Raise e ->
  chat float_repr str_repr f w =
  ([HttpGet (weather_url float_repr (latitude f) (longitude f))], Raise e).
Proof.
  intros H Hs Hj. apply chat_stops_at_weather.
  now rewrite get_weather_outcome, H, Hs, Hj.
Qed.

(** X2: a snapshot that is a non-empty JSON object without a [current]
    entry makes [chat] raise [KeyError('current')] while it builds the
    context, before the completion provider is called. *)
Theorem chat_snapshot_without_current f w d :
  outcome (get_weather float_repr (latitude f) (longitude f) w) = Ok (VDict d) ->
  d <> [] ->
  lookup "current" d = None ->
  chat float_repr str_repr f w =
  ([HttpGet (weather_url float_repr (latitude f) (longitude f))],
   Raise (KeyError "current")).
Proof.
  intros H Hd Hl. apply (chat_stops_at_context _ _ _ _ H).
  rewrite chat_context_static. cbn [truthy getitem].
  destruct d; [contradiction|]. now rewrite Hl.
Qed.

(** X3: a snapshot that is true but not a JSON object (a non-empty
    array or string, a non-zero number, [true]) makes [chat] raise
    [TypeError], before the completion provider is called. *)
Theorem chat_snapshot_not_an_object f w snapshot :
  outcome (get_weather float_repr (latitude f) (longitude f) w) = Ok snapshot ->
  truthy snapshot = true ->
  (forall d, snapshot <> VDict d) ->
  chat float_repr str_repr f w =
  ([HttpGet (weather_url float_repr (latitude f) (longitude f))], Raise TypeError).
Proof.
  intros H Ht Hd. apply (chat_stops_at_context _ _ _ _ H).
  rewrite chat_context_static, Ht.
  destruct snapshot; try reflexivity. now elim (Hd d).
Qed.

(** X4: the [weather] field of a reply of [chat] is what the [weather]
    handler returns for the same coordinates in the same world. *)
Theorem chat_weather_field_is_weather_endpoint f w resp :
  outcome (chat float_repr str_repr f w) = Ok resp ->
  getitem resp "weather"
  = outcome (weather float_repr (latitude f) (longitude f) w).
Proof.
  intros H. destruct (chat_returns_inv _ _ _ _ _ H) as (s & ctx & c & Hw & _ & _ & Hr).
  destruct (expected_reply_inv _ _ _ _ Hr) as (choice & u & _ & _ & ->).
  unfold weather. now rewrite Hw.
Qed.

(** X5: a reply of [chat] has exactly the keys [response], [weather],
    [prices], [model], [latency_ms], in this order; [model] is the model
    named in the completion request, and [response] is the content of
    the first choice of the completion ([None] when the choice has
    none). *)
Theorem chat_reply_shape f w resp :
  outcome (chat float_repr str_repr f w) = Ok resp ->
  map fst (items resp) = ["response"; "weather"; "prices"; "model"; "latency_ms"] /\
  exists kw c choice,
    In (GroqCreate kw) (calls (chat float_repr str_repr f w)) /\
    groq_create w kw = Ok c /\
    index (choices c) 0 = Ok choice /\
    getitem resp "response"
    = Ok (match content (choice_message choice) with
          | Some s => VStr s
          | None => VNone
          end) /\
    Some (getitem resp "model") = option_map Ok (lookup "model" kw).
Proof.
  intros H. destruct (chat_returns_inv _ _ _ _ _ H) as (s & ctx & c & Hw & Hc & Hg & Hr).
  destruct (expected_reply_inv _ _ _ _ Hr) as (choice & u & Hch & _ & ->).
  split; [reflexivity|].
  exists (expected_request f ctx), c, choice. repeat split; trivial.
  rewrite (chat_sends _ _ _ _ _ _ Hw Hc). right. now left.
Qed.

(** X6: when the completion provider raises, [chat] raises the same
    exception: no reply is made up. *)
Theorem chat_completion_failure_escapes f w kw e :
  In (GroqCreate kw) (calls (chat float_repr str_repr f w)) ->
  groq_create w kw = Raise e ->
  outcome (chat float_repr str_repr f w) = Raise e.
Proof.
  intros H Hg. destruct (chat_sends_inv _ _ _ _ _ H) as (s & c & Hw & Hc & -> & _).
  rewrite chat_run. cbv zeta. rewrite Hw, Hc. cbn [outcome snd]. now rewrite Hg.
Qed.

(** X7: a completion without choices makes [chat] raise [IndexError],
    whether or not the completion carries a usage record. *)
Theorem chat_completion_without_choices f w kw c :
  In (GroqCreate kw) (calls (chat float_repr str_repr f w)) ->
  groq_create w kw = Ok c ->
  choices c = [] ->
  outcome (chat float_repr str_repr f w) = Raise IndexError.
Proof.
  intros H Hg Hch. destruct (chat_sends_inv _ _ _ _ _ H) as (s & ctx & Hw & Hc & -> & _).
  rewrite chat_run. cbv zeta. rewrite Hw, Hc. cbn [outcome snd]. rewrite Hg.
  unfold expected_reply. now rewrite Hch.
Qed.

(** X8: a completion with a choice but without a usage record makes
    [chat] raise [AttributeError]: the generated text is lost. *)
Theorem chat_completion_without_usage f w kw c :
  In (GroqCreate kw) (calls (chat float_repr str_repr f w)) ->
  groq_create w kw = Ok c ->
  choices c <> [] ->
  usage c = None ->
  outcome (chat float_repr str_repr f w) = Raise AttributeError.
Proof.
  intros H Hg Hch Hu. destruct (chat_sends_inv _ _ _ _ _ H) as (s & ctx & Hw & Hc & -> & _).
  rewrite chat_run. cbv zeta. rewrite Hw, Hc. cbn [outcome snd]. rewrite Hg.
  unfold expected_reply. destruct (choices c); [contradiction|].
  cbn [index nth_error]. now rewrite Hu.
Qed.

(** X11: every run of [chat] starts with exactly one weather GET for the
    coordinates of the form, followed by at most one completion call; a
    run that returns a reply has made the completion call. *)
Theorem chat_call_discipline f w :
  exists rest,
    calls (chat float_repr str_repr f w)
    = HttpGet (weather_url float_repr (latitude f) (longitude f)) :: rest /\
    (rest = [] \/ exists kw, rest = [GroqCreate kw]) /\
    (forall resp, outcome (chat float_repr str_repr f w) = Ok resp -> rest <> []).
Proof.
  rewrite chat_run. cbv zeta.
  destruct (outcome (get_weather _ _ _ w)) as [s|e].
  - destruct (chat_context _ _ s _) as [ctx|e].
    + eexists. split; [reflexivity|]. split; [right; eexists; reflexivity|].
      intros _ _. discriminate.
    + exists []. split; [reflexivity|]. split; [now left|]. discriminate.
  - exists []. split; [reflexivity|]. split; [now left|]. discriminate.
Qed.

(** X12: the declared file name and content type of an upload are never
    read: two forms that differ only there have the same run, calls and
    outcome alike. *)
Theorem chat_ignores_upload_metadata f w up up' :
  image f = Some up ->
  file up' = file up ->
  chat float_repr str_repr (with_image f (Some up')) w
  = chat float_repr str_repr f w.
Proof.
  intros Hi Hf. rewrite !chat_run. cbv zeta. cbn [with_image latitude longitude].
  destruct (outcome (get_weather _ _ _ w)) as [s|e]; [|reflexivity].
  destruct (chat_context _ _ s _) as [ctx|e]; [|reflexivity].
  assert (E : expected_request (with_image f (Some up')) ctx = expected_request f ctx).
  { unfold expected_request, expected_model, expected_content.
    cbn [with_image image language message]. now rewrite Hi, Hf. }
  rewrite E. destruct (groq_create w _); [|reflexivity].
  unfold expected_reply, expected_model. cbn [with_image image]. now rewrite Hi.
Qed.

(** X13: the coordinates reach the completion provider only through the
    snapshot: two calls with the same message, language and image that
    obtained the same snapshot send the same completion request. *)
Theorem chat_request_ignores_coordinates f1 w1 kw1 f2 w2 kw2 :
  message f1 = message f2 ->
  language f1 = language f2 ->
  image f1 = image f2 ->
  outcome (get_weather float_repr (latitude f1) (longitude f1) w1)
  = outcome (get_weather float_repr (latitude f2) (longitude f2) w2) ->
  In (GroqCreate kw1) (calls (chat float_repr str_repr f1 w1)) ->
  In (GroqCreate kw2) (calls (chat float_repr str_repr f2 w2)) ->
  kw1 = kw2.
Proof.
  intros Hm Hl Hi Hw H1 H2.
  destruct (chat_sends_inv _ _ _ _ _ H1) as (s1 & c1 & Hs1 & Hc1 & -> & _).
  destruct (chat_sends_inv _ _ _ _ _ H2) as (s2 & c2 & Hs2 & Hc2 & -> & _).
  rewrite Hs1, Hs2 in Hw. injection Hw as <-.
  rewrite Hc1 in Hc2. injection Hc2 as <-.
  unfold expected_request, expected_model, expected_content.
  now rewrite Hm, Hl, Hi.
Qed.

(** X14: [get_weather] returns [None] exactly when the provider answered
    with a status other than 200, or with status 200 and the JSON value
    [null]. *)
Theorem get_weather_none_iff lat lon w :
  outcome (get_weather float_repr lat lon w) = Ok VNone <->
  exists resp,
    httpx_get w (weather_url float_repr lat lon) = Ok resp /\
    (status_code resp <> 200%Z \/ json resp = Ok VNone).
Proof.
  rewrite get_weather_outcome. split.
  - destruct (httpx_get w _) as [resp|e]; [|discriminate].
    intros H. exists resp. split; [reflexivity|].
    destruct (Z.eqb_spec (status_code resp) 200); [now right | now left].
  - intros (resp & -> & H).
    destruct (Z.eqb_spec (status_code resp) 200) as [E|E]; [|reflexivity].
    destruct H; [contradiction | assumption].
Qed.

Lemma chat_context_paths snapshot table :
  chat_context float_repr str_repr snapshot table =
  (let? current :=
     (if truthy snapshot then getitem snapshot "current" else Ok (VStr "N/A")) in
   let? wheat_price := getitem2 table "wheat" "price" in
   let? wheat_unit := getitem2 table "wheat" "unit" in
   let? cotton_price := getitem2 table "cotton" "price" in
   let? rice_price := getitem2 table "rice" "price" in
   Ok (nl ++ "Current Weather: " ++ fmt float_repr str_repr current ++ nl
       ++ "Mandi Prices (PKR): Wheat: " ++ fmt float_repr str_repr wheat_price
       ++ "/" ++ fmt float_repr str_repr wheat_unit ++ ", " ++ nl
       ++ "Cotton: " ++ fmt float_repr str_repr cotton_price
       ++ ", Rice: " ++ fmt float_repr str_repr rice_price ++ nl)).
Proof.
  unfold chat_context, getitem2.
  destruct (if truthy snapshot then _ else _); [|reflexivity].
  destruct (getitem table "wheat") as [wheat|]; [|reflexivity].
  destruct (getitem wheat "price"); [|reflexivity].
  destruct (getitem wheat "unit"); [|reflexivity].
  destruct (getitem table "cotton") as [cotton|]; [|reflexivity].
  destruct (getitem cotton "price"); [|reflexivity].
  destruct (getitem table "rice") as [rice|]; [|reflexivity].
  destruct (getitem rice "price"); reflexivity.
Qed.

(** X15: for any price table, the context text (or the exception raised
    while building it) depends on the table only through
    [table['wheat']['price']], [table['wheat']['unit']],
    [table['cotton']['price']] and [table['rice']['price']]. *)
Theorem chat_context_reads_four_entries snapshot table table' :
  getitem2 table "wheat" "price" = getitem2 table' "wheat" "price" ->
  getitem2 table "wheat" "unit" = getitem2 table' "wheat" "unit" ->
  getitem2 table "cotton" "price" = getitem2 table' "cotton" "price" ->
  getitem2 table "rice" "price" = getitem2 table' "rice" "price" ->
  chat_context float_repr str_repr snapshot table
  = chat_context float_repr str_repr snapshot table'.
Proof.
  intros H1 H2 H3 H4. rewrite !chat_context_paths. now rewrite H1, H2, H3, H4.
Qed.

End Edges.

(* ================================================================= *)
(** ** The image URL and the update of the user message *)

Section Payload.
Import Base64.

Lemma list_ind3 {A} (P : list A -> Prop) :
  P [] -> (forall a, P [a]) -> (forall a b, P [a; b]) ->
  (forall a b c l, P l -> P (a :: b :: c :: l)) ->
  forall l, P l.
Proof.
  intros H0 H1 H2 H3. fix IH 1.
  intros [|a [|b [|c l]]];
    [exact H0 | apply H1 | apply H2 | apply H3; apply IH].
Qed.

(** X16: the base64 text of [n] bytes has [4 * ceil(n / 3)] characters. *)
Theorem b64encode_size bs :
  String.length (b64encode bs) = 4 * ((length bs + 2) / 3).
Proof.
  induction bs as [|a|a b|a b c l IH] using list_ind3; try reflexivity.
  cbn [b64encode String.length length]. rewrite IH.
  replace (S (S (S (length l))) + 2) with (length l + 2 + 1 * 3) by lia.
  rewrite Nat.div_add by discriminate. lia.
Qed.

Lemma enc6_in_alphabet n k : dec6 (enc6 (sextet n k)) <> None.
Proof. rewrite dec6_enc6 by apply sextet_lt. discriminate. Qed.

(** X17: the base64 text consists of characters of the alphabet and of
    the padding character [=] only. *)
Theorem b64encode_charset bs :
  Forall (fun c => dec6 c <> None \/ c = pad)
         (list_ascii_of_string (b64encode bs)).
Proof.
  induction bs as [|a|a b|a b c l IH] using list_ind3;
    cbn [b64encode list_ascii_of_string];
    repeat (apply Forall_cons; [first [left; apply enc6_in_alphabet | now right]|]);
    first [apply Forall_nil | exact IH].
Qed.

Lemma b64encode_inj bs bs' : b64encode bs = b64encode bs' -> bs = bs'.
Proof.
  intros H. apply (f_equal b64decode) in H.
  rewrite !b64decode_b64encode in H. now injection H.
Qed.

(** X18: the image URL of a vision request determines the uploaded
    bytes: two requests with the same URL carry the same bytes. *)
Theorem image_url_determines_bytes fr sr f1 w1 kw1 up1 f2 w2 kw2 up2 :
  In (GroqCreate kw1) (calls (chat fr sr f1 w1)) ->
  In (GroqCreate kw2) (calls (chat fr sr f2 w2)) ->
  image f1 = Some up1 ->
  image f2 = Some up2 ->
  image_url kw1 = image_url kw2 ->
  file up1 = file up2.
Proof.
  intros H1 H2 Hi1 Hi2 Hu.
  destruct (chat_sends_inv _ _ _ _ _ H1) as (s1 & c1 & _ & _ & -> & _).
  destruct (chat_sends_inv _ _ _ _ _ H2) as (s2 & c2 & _ & _ & -> & _).
  unfold image_url, user_content, expected_request, expected_content in Hu.
  rewrite Hi1, Hi2 in Hu. cbn [getitem lookup getindex nth_error String.eqb Ascii.eqb Bool.eqb] in Hu.
  injection Hu as Hu. now apply b64encode_inj.
Qed.

Lemma lookup_dict_set_same key x d : lookup key (dict_set key x d) = Some x.
Proof.
  induction d as [|[k v] d IH]; cbn [dict_set lookup].
  - now rewrite String.eqb_refl.
  - destruct (String.eqb k key) eqn:E; cbn [lookup]; now rewrite E.
Qed.

Lemma lookup_dict_set_other key x d k :
  k <> key -> lookup k (dict_set key x d) = lookup k d.
Proof.
  intros Hk. induction d as [|[k0 v] d IH]; cbn [dict_set lookup].
  - destruct (String.eqb_spec key k); [congruence | reflexivity].
  - destruct (String.eqb_spec k0 key) as [->|]; cbn [lookup].
    + destruct (String.eqb_spec key k); [congruence | reflexivity].
    + now rewrite IH.
Qed.

Lemma list_set_ok {A} i (x : A) l l' :
  list_set i x l = Ok l' ->
  nth_error l' i = Some x /\
  (forall j, j <> i -> nth_error l' j = nth_error l j) /\
  length l' = length l.
Proof.
  revert i l'. induction l as [|a l IH]; intros [|i] l' H; cbn [list_set] in H;
    try discriminate.
  - injection H as <-. repeat split. intros [|j] Hj; [congruence | reflexivity].
  - destruct (list_set i x l) as [r|] eqn:E; [|discriminate].
    injection H as <-. destruct (IH _ _ E) as (H1 & H2 & H3).
    repeat split; cbn [nth_error length]; [assumption | | congruence].
    intros [|j] Hj; [reflexivity|]. apply H2. congruence.
Qed.

Lemma list_set_in_range {A} i (y : A) l a :
  nth_error l i = Some a -> exists l', list_set i y l = Ok l'.
Proof.
  revert i. induction l as [|b l IH]; intros [|i] Hn; cbn in Hn;
    try discriminate.
  - eexists. reflexivity.
  - destruct (IH _ Hn) as [l' E]. cbn [list_set]. rewrite E.
    eexists. reflexivity.
Qed.

Lemma setitem2_inv v i key x v' :
  setitem2 v i key x = Ok v' ->
  exists l d l',
    v = VList l /\ nth_error l i = Some (VDict d) /\
    list_set i (VDict (dict_set key x d)) l = Ok l' /\ v' = VList l'.
Proof.
  unfold setitem2, index. destruct v as [| | | | |l|]; try discriminate.
  destruct (nth_error l i) as [item|] eqn:E; [|discriminate].
  destruct item as [| | | | | |d]; try discriminate.
  destruct (list_set i _ l) as [l'|] eqn:El; [|discriminate].
  intros H. injection H as <-. now exists l, d, l'.
Qed.

(** X19: after [v[i][key] = x], reading [v[i][key]] gives [x]. *)
Theorem setitem2_then_get v i key x v' :
  setitem2 v i key x = Ok v' ->
  getindexitem v' i key = Ok x.
Proof.
  intros H. destruct (setitem2_inv _ _ _ _ _ H) as (l & d & l' & -> & _ & Hl & ->).
  destruct (list_set_ok _ _ _ _ Hl) as (H1 & _ & _).
  unfold getindexitem, getindex. rewrite H1. cbn [getitem].
  now rewrite lookup_dict_set_same.
Qed.

(** X20: [v[i][key] = x] changes nothing else: reading [v[j][k]] at any
    other index or any other key gives what it gave before, and the list
    keeps its length. *)
Theorem setitem2_frame v i key x v' :
  setitem2 v i key x = Ok v' ->
  (forall j k, j <> i \/ k <> key -> getindexitem v' j k = getindexitem v j k) /\
  length (match v' with VList l => l | _ => [] end)
  = length (match v with VList l => l | _ => [] end).
Proof.
  intros H. destruct (setitem2_inv _ _ _ _ _ H) as (l & d & l' & -> & Hn & Hl & ->).
  destruct (list_set_ok _ _ _ _ Hl) as (H1 & H2 & H3).
  split; [|exact H3]. intros j k Hjk. unfold getindexitem, getindex.
  destruct (Nat.eq_dec j i) as [->|Hj].
  - rewrite H1, Hn. cbn [getitem].
    destruct Hjk as [Hjk|Hk]; [congruence|]. now rewrite lookup_dict_set_other.
  - now rewrite H2.
Qed.

(** X21: [v[i][key] = x] succeeds exactly when [v] is a list, [i] is in
    range and [v[i]] is a dict; it raises [IndexError] when [v] is a
    list and [i] is out of range. *)
Theorem setitem2_succeeds_iff v i key x :
  ((exists v', setitem2 v i key x = Ok v') <->
   (exists l d, v = VList l /\ nth_error l i = Some (VDict d))) /\
  (forall l, v = VList l -> length l <= i -> setitem2 v i key x = Raise IndexError).
Proof.
  split; [split|].
  - intros [v' H]. destruct (setitem2_inv _ _ _ _ _ H) as (l & d & l' & -> & Hn & _).
    now exists l, d.
  - intros (l & d & -> & Hn). unfold setitem2, index. rewrite Hn.
    destruct (list_set_in_range i (VDict (dict_set key x d)) l _ Hn) as [l' ->].
    eexists. reflexivity.
  - intros l -> Hlen. unfold setitem2, index.
    now rewrite (proj2 (nth_error_None l i) Hlen).
Qed.

End Payload.

(* ================================================================= *)
(** ** Concrete runs of the edge cases *)

Section EdgeRuns.
Local Open Scope list_scope.
Local Open Scope string_scope.

Ltac logged_call := vm_compute; right; left; reflexivity.

Lemma chat_weather_bad_body_escapes_witness :
  httpx_get world_weather_bad_body
    (weather_url sample_float_repr (latitude text_request) (longitude text_request))
  = Ok {| status_code := 200; json := Raise JSONDecodeError |} /\
  sample_run text_request world_weather_bad_body
  = ([HttpGet (weather_url sample_float_repr (latitude text_request)
                 (longitude text_request))],
     Raise JSONDecodeError).
Proof.
  split; [reflexivity|].
  exact (chat_weather_bad_body_escapes sample_float_repr sample_str_repr
           text_request world_weather_bad_body
           {| status_code := 200; json := Raise JSONDecodeError |}
           JSONDecodeError eq_refl eq_refl eq_refl).
Defined.

Lemma chat_snapshot_without_current_witness :
  outcome (get_weather sample_float_repr (latitude text_request)
             (longitude text_request) world_weather_no_current)
  = Ok (VDict [("error", VBool true);
               ("reason", VStr "Latitude must be in range")]) /\
  sample_run text_request world_weather_no_current
  = ([HttpGet (weather_url sample_float_repr (latitude text_request)
                 (longitude text_request))],
     Raise (KeyError "current")).
Proof.
  split; [reflexivity|].
  apply (chat_snapshot_without_current sample_float_repr sample_str_repr
           text_request world_weather_no_current
           [("error", VBool true); ("reason", VStr "Latitude must be in range")]);
    [reflexivity | discriminate | reflexivity].
Defined.

Lemma chat_snapshot_not_an_object_witness :
  outcome (get_weather sample_float_repr (latitude image_request)
             (longitude image_request) world_weather_array)
  = Ok (VList [VInt 1; VInt 2]) /\
  truthy (VList [VInt 1; VInt 2]) = true /\
  sample_run image_request world_weather_array
  = ([HttpGet (weather_url sample_float_repr (latitude image_request)
                 (longitude image_request))],
     Raise TypeError).
Proof.
  split; [reflexivity|]. split; [reflexivity|].
  apply (chat_snapshot_not_an_object sample_float_repr sample_str_repr
           image_request world_weather_array (VList [VInt 1; VInt 2]));
    [reflexivity | reflexivity | discriminate].
Defined.

Lemma chat_weather_field_is_weather_endpoint_witness :
  outcome (sample_run text_request world_weather_null)
  = Ok (sample_response text_request world_weather_null) /\
  getitem (sample_response text_request world_weather_null) "weather"
  = outcome (weather sample_float_repr (latitude text_request)
               (longitude text_request) world_weather_null).
Proof.
  assert (Hr : outcome (sample_run text_request world_weather_null)
               = Ok (sample_response text_request world_weather_null))
    by (vm_compute; reflexivity).
  split; [exact Hr|].
  exact (chat_weather_field_is_weather_endpoint sample_float_repr
           sample_str_repr text_request world_weather_null _ Hr).
Defined.

Lemma chat_reply_shape_witness :
  outcome (sample_run image_request world_up)
  = Ok (sample_response image_request world_up) /\
  map fst (items (sample_response image_request world_up))
  = ["response"; "weather"; "prices"; "model"; "latency_ms"] /\
  exists kw c choice,
    In (GroqCreate kw) (calls (sample_run image_request world_up)) /\
    groq_create world_up kw = Ok c /\
    index (choices c) 0 = Ok choice /\
    getitem (sample_response image_request world_up) "response"
    = Ok (match content (choice_message choice) with
          | Some s => VStr s
          | None => VNone
          end) /\
    Some (getitem (sample_response image_request world_up) "model")
    = option_map Ok (lookup "model" kw).
Proof.
  assert (Hr : outcome (sample_run image_request world_up)
               = Ok (sample_response image_request world_up))
    by (vm_compute; reflexivity).
  split; [exact Hr|].
  exact (chat_reply_shape sample_float_repr sample_str_repr
           image_request world_up _ Hr).
Defined.

Lemma chat_completion_failure_escapes_witness :
  In (GroqCreate (sample_kw text_request world_groq_down))
     (calls (sample_run text_request world_groq_down)) /\
  groq_create world_groq_down (sample_kw text_request world_groq_down)
  = Raise APIError /\
  outcome (sample_run text_request world_groq_down) = Raise APIError.
Proof.
  assert (Hin : In (GroqCreate (sample_kw text_request world_groq_down))
                   (calls (sample_run text_request world_groq_down)))
    by logged_call.
  split; [exact Hin|]. split; [reflexivity|].
  exact (chat_completion_failure_escapes sample_float_repr sample_str_repr
           text_request world_groq_down _ APIError Hin eq_refl).
Defined.

Lemma chat_completion_without_choices_witness :
  In (GroqCreate (sample_kw text_request world_groq_no_choices))
     (calls (sample_run text_request world_groq_no_choices)) /\
  groq_create world_groq_no_choices (sample_kw text_request world_groq_no_choices)
  = Ok {| choices := []; usage := None |} /\
  outcome (sample_run text_request world_groq_no_choices) = Raise IndexError.
Proof.
  assert (Hin : In (GroqCreate (sample_kw text_request world_groq_no_choices))
                   (calls (sample_run text_request world_groq_no_choices)))
    by logged_call.
  split; [exact Hin|]. split; [reflexivity|].
  exact (chat_completion_without_choices sample_float_repr sample_str_repr
           text_request world_groq_no_choices _
           {| choices := []; usage := None |} Hin eq_refl eq_refl).
Defined.

Lemma chat_completion_without_usage_witness :
  In (GroqCreate (sample_kw image_request world_groq_no_usage))
     (calls (sample_run image_request world_groq_no_usage)) /\
  groq_create world_groq_no_usage (sample_kw image_request world_groq_no_usage)
  = Ok {| choices := [ {| choice_message := {| content := None |} |} ];
          usage := None |} /\
  outcome (sample_run image_request world_groq_no_usage) = Raise AttributeError.
Proof.
  assert (Hin : In (GroqCreate (sample_kw image_request world_groq_no_usage))
                   (calls (sample_run image_request world_groq_no_usage)))
    by logged_call.
  split; [exact Hin|]. split; [reflexivity|].
  apply (chat_completion_without_usage sample_float_repr sample_str_repr
           image_request world_groq_no_usage _
           {| choices := [ {| choice_message := {| content := None |} |} ];
              usage := None |} Hin eq_refl);
    [discriminate | reflexivity].
Defined.

Lemma chat_call_discipline_witness :
  outcome (sample_run text_request world_up)
  = Ok (sample_response text_request world_up) /\
  exists rest,
    calls (sample_run text_request world_up)
    = HttpGet (weather_url sample_float_repr (latitude text_request)
                 (longitude text_request)) :: rest /\
    rest <> [].
Proof.
  assert (Hr : outcome (sample_run text_request world_up)
               = Ok (sample_response text_request world_up))
    by (vm_compute; reflexivity).
  split; [exact Hr|].
  destruct (chat_call_discipline sample_float_repr sample_str_repr
              text_request world_up) as (rest & Hc & _ & Hn).
  exists rest. split; [exact Hc | exact (Hn _ Hr)].
Defined.

Lemma chat_ignores_upload_metadata_witness :
  image image_request = Some jpeg_upload /\
  file renamed_upload = file jpeg_upload /\
  chat sample_float_repr sample_str_repr
    (with_image image_request (Some renamed_upload)) world_up
  = chat sample_float_repr sample_str_repr image_request world_up.
Proof.
  split; [reflexivity|]. split; [reflexivity|].
  exact (chat_ignores_upload_metadata sample_float_repr sample_str_repr
           image_request world_up jpeg_upload renamed_upload eq_refl eq_refl).
Defined.

Lemma chat_request_ignores_coordinates_witness :
  message image_request = message image_request_multan /\
  language image_request = language image_request_multan /\
  image image_request = image image_request_multan /\
  outcome (get_weather sample_float_repr (latitude image_request)
             (longitude image_request) world_up)
  = outcome (get_weather sample_float_repr (latitude image_request_multan)
               (longitude image_request_multan) world_groq_down) /\
  In (GroqCreate (sample_kw image_request world_up))
     (calls (sample_run image_request world_up)) /\
  In (GroqCreate (sample_kw image_request_multan world_groq_down))
     (calls (sample_run image_request_multan world_groq_down)) /\
  sample_kw image_request world_up
  = sample_kw image_request_multan world_groq_down.
Proof.
  assert (H1 : In (GroqCreate (sample_kw image_request world_up))
                  (calls (sample_run image_request world_up)))
    by logged_call.
  assert (H2 : In (GroqCreate (sample_kw image_request_multan world_groq_down))
                  (calls (sample_run image_request_multan world_groq_down)))
    by logged_call.
  repeat (split; [first [reflexivity | assumption]|]).
  exact (chat_request_ignores_coordinates sample_float_repr sample_str_repr
           image_request world_up _ image_request_multan world_groq_down _
           eq_refl eq_refl eq_refl eq_refl H1 H2).
Defined.

Lemma get_weather_none_iff_witness :
  httpx_get world_weather_null
    (weather_url sample_float_repr default_latitude default_longitude)
  = Ok {| status_code := 200; json := Ok VNone |} /\
  outcome (get_weather sample_float_repr default_latitude default_longitude
             world_weather_null) = Ok VNone.
Proof.
  split; [reflexivity|].
  apply (proj2 (get_weather_none_iff sample_float_repr default_latitude
                  default_longitude world_weather_null)).
  exists {| status_code := 200; json := Ok VNone |}.
  split; [reflexivity | right; reflexivity].
Defined.

Lemma chat_context_reads_four_entries_witness :
  getitem2 get_mandi_prices "wheat" "price" = getitem2 short_table "wheat" "price" /\
  getitem2 get_mandi_prices "wheat" "unit" = getitem2 short_table "wheat" "unit" /\
  getitem2 get_mandi_prices "cotton" "price" = getitem2 short_table "cotton" "price" /\
  getitem2 get_mandi_prices "rice" "price" = getitem2 short_table "rice" "price" /\
  chat_context sample_float_repr sample_str_repr sample_snapshot get_mandi_prices
  = chat_context sample_float_repr sample_str_repr sample_snapshot short_table.
Proof.
  repeat (split; [reflexivity|]).
  exact (chat_context_reads_four_entries sample_float_repr sample_str_repr
           sample_snapshot get_mandi_prices short_table
           eq_refl eq_refl eq_refl eq_refl).
Defined.

Lemma image_url_determines_bytes_witness :
  In (GroqCreate (sample_kw image_request world_up))
     (calls (sample_run image_request world_up)) /\
  In (GroqCreate (sample_kw (with_image text_request (Some renamed_upload))
                    world_weather_503))
     (calls (sample_run (with_image text_request (Some renamed_upload))
               world_weather_503)) /\
  image_url (sample_kw image_request world_up)
  = image_url (sample_kw (with_image text_request (Some renamed_upload))
                 world_weather_503) /\
  file jpeg_upload = file renamed_upload.
Proof.
  assert (H1 : In (GroqCreate (sample_kw image_request world_up))
                  (calls (sample_run image_request world_up)))
    by logged_call.
  assert (H2 : In (GroqCreate (sample_kw (with_image text_request
                                            (Some renamed_upload))
                                 world_weather_503))
                  (calls (sample_run (with_image text_request
                                        (Some renamed_upload))
                            world_weather_503)))
    by logged_call.
  assert (Hu : image_url (sample_kw image_request world_up)
               = image_url (sample_kw (with_image text_request
                                         (Some renamed_upload))
                              world_weather_503))
    by (vm_compute; reflexivity).
  split; [exact H1|]. split; [exact H2|]. split; [exact Hu|].
  exact (image_url_determines_bytes sample_float_repr sample_str_repr
           image_request world_up _ jpeg_upload
           (with_image text_request (Some renamed_upload)) world_weather_503 _
           renamed_upload H1 H2 eq_refl eq_refl Hu).
Defined.

Lemma setitem2_then_get_witness :
  setitem2 two_messages 1 "content" (VList [VStr "part"])
  = Ok (VList [VDict [("role", VStr "system"); ("content", VStr "S")];
               VDict [("role", VStr "user");
                      ("content", VList [VStr "part"])]]) /\
  getindexitem
    (VList [VDict [("role", VStr "system"); ("content", VStr "S")];
            VDict [("role", VStr "user"); ("content", VList [VStr "part"])]])
    1 "content"
  = Ok (VList [VStr "part"]).
Proof.
  split; [reflexivity|].
  exact (setitem2_then_get two_messages 1 "content" (VList [VStr "part"]) _
           eq_refl).
Defined.

Lemma setitem2_frame_witness :
  setitem2 two_messages 1 "name" (VStr "kissan")
  = Ok (VList [VDict [("role", VStr "system"); ("content", VStr "S")];
               VDict [("role", VStr "user"); ("content", VStr "U");
                      ("name", VStr "kissan")]]) /\
  getindexitem
    (VList [VDict [("role", VStr "system"); ("content", VStr "S")];
            VDict [("role", VStr "user"); ("content", VStr "U");
                   ("name", VStr "kissan")]])
    1 "content"
  = getindexitem two_messages 1 "content".
Proof.
  split; [reflexivity|].
  apply (proj1 (setitem2_frame two_messages 1 "name" (VStr "kissan") _ eq_refl)).
  right. discriminate.
Defined.

Lemma setitem2_succeeds_iff_witness :
  two_messages
  = VList [VDict [("role", VStr "system"); ("content", VStr "S")];
           VDict [("role", VStr "user"); ("content", VStr "U")]] /\
  setitem2 two_messages 2 "content" VNone = Raise IndexError.
Proof.
  split; [reflexivity|].
  apply (proj2 (setitem2_succeeds_iff two_messages 2 "content" VNone)
           [VDict [("role", VStr "system"); ("content", VStr "S")];
            VDict [("role", VStr "user"); ("content", VStr "U")]]);
    [reflexivity | apply le_n].
Defined.

End EdgeRuns.
